(** * Voice-AI gateway: a shallow embedding of [server.js]

    The gateway is an Express application with two routes.  Each route
    validates its input, performs one [axios.post] against an upstream API
    and reshapes the outcome into a JSON reply.  The embedding keeps the
    shape of the JavaScript: values are JavaScript values, the handlers are
    written in a small state-and-exception monad whose state holds the
    Express response object, the list of outbound calls and the console.
    The middleware in front of the routes ([express.json()], the cors
    package, multer's [upload.single]) is modelled by what it does to the
    request and the response. *)

From Stdlib Require Import Floats.SpecFloat.
From Stdlib Require Import ZArith.
From stdpp Require Import base strings list gmap pretty.

Local Open Scope string_scope.
Local Set Warnings "-register-all".

(** ** JavaScript values *)

(** The values the program handles: what [JSON.parse] produces, plus
    [undefined].  Numbers are IEEE 754 binary64 data. *)
Inductive value : Type :=
  | VUndefined
  | VNull
  | VBool (b : bool)
  | VNum (n : spec_float)
  | VStr (s : string)
  | VArr (l : list value)
  | VObj (m : gmap string value).

(** [ToBoolean]: the test behind [!x] and [c ? a : b]. *)
Definition truthy (v : value) : bool :=
  match v with
  | VUndefined | VNull => false
  | VBool b => b
  | VNum (S754_zero _) | VNum S754_nan => false
  | VNum _ => true
  | VStr s => negb (String.eqb s "")
  | VArr _ | VObj _ => true
  end.

(** What [JSON.stringify] makes of a value, read back as a value: a property
    holding [undefined] is left out, [undefined] in an array and a number
    that is not finite become [null], and there is no text at all for
    [undefined] itself. *)
Fixpoint to_json (v : value) : option value :=
  match v with
  | VUndefined => None
  | VNull => Some VNull
  | VBool b => Some (VBool b)
  | VNum (S754_finite s m e) => Some (VNum (S754_finite s m e))
  | VNum (S754_zero _) => Some (VNum (S754_zero false))
  | VNum _ => Some VNull
  | VStr s => Some (VStr s)
  | VArr l => Some (VArr (map (λ x, default VNull (to_json x)) l))
  | VObj m => Some (VObj (omap to_json m))
  end.

(** The number literals of the source, as binary64 values. *)
Definition num_0_7 : spec_float := S754_finite false 6305039478318694 (-53).
Definition num_250 : spec_float := S754_finite false 8796093022208000 (-45).
Definition num_0 : spec_float := S754_zero false.
Definition num_3001 : spec_float := S754_finite false 6599268789911552 (-41).

(** ** Errors and upstream replies *)

(** The response object axios attaches to a fulfilled call and to an
    [AxiosError] raised for a reply outside 2xx. *)
Record axios_response := { status : nat; data : value }.

(** A thrown error object: [error.message] and [error.response]
    ([None] when the property is undefined, as for a [TypeError] or a
    network failure). *)
Record js_error := { message : string; response : option axios_response }.

(** What the network gives back for one outbound call. *)
Inductive upstream_reply :=
  | NetworkFailure (msg : string)
  | Reply (st : nat) (d : value).

(** axios' default [validateStatus]. *)
Definition validateStatus (st : nat) : bool :=
  (200 <=? st)%nat && (st <? 300)%nat.

(** ** Outbound calls *)

(** One entry of a [FormData] object, as [formData.append] records it. *)
Inductive part_content :=
  | Buffer (bytes : list Byte.byte)
  | Field (s : string).

Record form_part := {
  part_name : string;
  part_content_of : part_content;
  part_filename : option string;
  part_contentType : option string
}.

Inductive request_data :=
  | JsonData (v : value)
  | FormData (parts : list form_part).

(** The arguments of one [axios.post(url, data, {headers})]. *)
Record outbound := {
  url : string;
  payload : request_data;
  headers : gmap string string
}.

(** ** The Express response object and the world *)

(** What has been sent: nothing yet, the argument of [res.json], an empty
    body, or the HTML page of Express' default handlers. *)
Inductive res_body :=
  | NotSent
  | Json (v : value)
  | Ended
  | Html.

(** [res_headers] holds the headers the middleware of [server.js] sets; the
    ones Express adds to every reply on its own (Content-Type and the like)
    are not tracked. *)
Record res_state := {
  statusCode : nat;
  res_headers : gmap string string;
  sent : res_body
}.

Inductive log_line :=
  | ConsoleLog (args : list value)
  | ConsoleError (args : list value).

Record world := {
  res : res_state;
  calls : list outbound;
  console : list log_line
}.

Definition initial_res : res_state :=
  {| statusCode := 200; res_headers := ∅; sent := NotSent |}.

Definition initial_world : world :=
  {| res := initial_res; calls := []; console := [] |}.

(** ** The monad of handlers *)

Inductive completion (A : Type) :=
  | Normal (a : A)
  | Throw (e : js_error).
Arguments Normal {A} a.
Arguments Throw {A} e.

Definition js (A : Type) : Type := world → completion A * world.

#[global] Instance js_ret : MRet js := λ A a w, (Normal a, w).

#[global] Instance js_bind : MBind js := λ A B f m w,
  match m w with
  | (Normal a, w') => f a w'
  | (Throw e, w') => (Throw e, w')
  end.

Definition throw {A} (e : js_error) : js A := λ w, (Throw e, w).

(** [try { m } catch (error) { h error }] *)
Definition try_catch {A} (m : js A) (h : js_error → js A) : js A := λ w,
  match m w with
  | (Normal a, w') => (Normal a, w')
  | (Throw e, w') => h e w'
  end.

Definition run {A} (m : js A) : completion A * world := m initial_world.

(** ** Property access *)

(** The property names the source reads. None of them is an own or inherited
    property of an array, a string, a number or a boolean. *)
Inductive prop := Question | Text | Choices | Message | Content.

Definition prop_name (p : prop) : string :=
  match p with
  | Question => "question"
  | Text => "text"
  | Choices => "choices"
  | Message => "message"
  | Content => "content"
  end.

(** The message of V8's [TypeError] for a property read on [undefined] or
    [null]. *)
Definition type_error (base key : string) : js_error :=
  {| message := "Cannot read properties of " +:+ base +:+ " (reading '" +:+ key +:+ "')";
     response := None |}.

(** [v.p] *)
Definition get_prop (v : value) (p : prop) : js value :=
  match v with
  | VUndefined => throw (type_error "undefined" (prop_name p))
  | VNull => throw (type_error "null" (prop_name p))
  | VObj m => mret (default VUndefined (m !! prop_name p))
  | _ => mret VUndefined
  end.

(** [v[i]] for a numeric literal [i]; a string is read as the sequence of
    its code units. *)
Definition get_index (v : value) (i : nat) : js value :=
  match v with
  | VUndefined => throw (type_error "undefined" (pretty i))
  | VNull => throw (type_error "null" (pretty i))
  | VArr l => mret (default VUndefined (l !! i))
  | VObj m => mret (default VUndefined (m !! pretty i))
  | VStr s =>
      mret (match String.get i s with
            | Some c => VStr (String c EmptyString)
            | None => VUndefined
            end)
  | _ => mret VUndefined
  end.

(** ** Express and console primitives *)

Definition set_res (f : res_state → res_state) : js unit := λ w,
  (Normal (), {| res := f (res w); calls := calls w; console := console w |}).

(** [res.status(n)] *)
Definition res_status (n : nat) : js unit :=
  set_res (λ r, {| statusCode := n; res_headers := res_headers r; sent := sent r |}).

(** [res.setHeader(k, v)] *)
Definition res_setHeader (k v : string) : js unit :=
  set_res (λ r, {| statusCode := statusCode r;
                   res_headers := <[k := v]> (res_headers r);
                   sent := sent r |}).

Definition headers_sent : js_error :=
  {| message := "Cannot set headers after they are sent to the client";
     response := None |}.

(** [res.json(v)]: sends [v]; a second send raises. *)
Definition res_json (v : value) : js unit := λ w,
  match sent (res w) with
  | NotSent =>
      set_res (λ r, {| statusCode := statusCode r;
                       res_headers := res_headers r;
                       sent := Json v |}) w
  | _ => (Throw headers_sent, w)
  end.

(** [res.end()] *)
Definition res_end : js unit :=
  set_res (λ r, {| statusCode := statusCode r;
                   res_headers := res_headers r;
                   sent := match sent r with NotSent => Ended | b => b end |}).

(** Express' default error handler: the status of the error, and an HTML
    page for body. *)
Definition error_page (st : nat) : js unit :=
  res_status st;;
  set_res (λ r, {| statusCode := statusCode r;
                   res_headers := res_headers r;
                   sent := match sent r with NotSent => Html | b => b end |}).

Definition emit (l : log_line) : js unit := λ w,
  (Normal (), {| res := res w; calls := calls w; console := console w ++ [l] |}).

Definition console_log (args : list value) : js unit := emit (ConsoleLog args).
Definition console_error (args : list value) : js unit := emit (ConsoleError args).

(** ** Inbound requests *)

(** The file multer's memory storage attaches as [req.file]. *)
Record uploaded_file := {
  buffer : list Byte.byte;
  mimetype : string;
  originalname : string
}.

Inductive endpoint := Stt | Openai.

(** A request as the route callbacks see it: [req.body] as [express.json()]
    left it and [req.file] as [upload.single('audio')] left it. *)
Record request := {
  method : string;
  route : option endpoint;       (* the path pattern Express matched *)
  headers_origin : option string; (* req.headers.origin *)
  body : value;
  file : option uploaded_file
}.

(** What a request carries when it arrives: nothing a parser takes, a JSON
    text ([None] when the text is not JSON; the text of an empty body reads
    as the empty object), or a multipart form with its text fields, as
    multer gathers them into [req.body], and its file parts in order, each
    under its field name. *)
Inductive content :=
  | NoBody
  | JsonText (parsed : option value)
  | Multipart (fields : value) (files : list (string * uploaded_file)).

(** A request as it arrives, before any middleware. *)
Record http_request := {
  in_method : string;
  in_route : option endpoint;   (* the path pattern Express matched *)
  in_origin : option string;
  in_content : content
}.

(** What a computation yields, leaving the world aside. *)
Definition eval {A} (m : js A) : completion A := fst (run m).

(** ** Configuration *)

(** A variable of [process.env]: a string, or [undefined] when not set. *)
Definition env_value (o : option string) : value :=
  from_option VStr VUndefined o.

(** [a || b] *)
Definition js_or (a b : value) : value := if truthy a then a else b.

(** [const port = process.env.PORT || 3001] *)
Definition port (PORT : option string) : value :=
  js_or (env_value PORT) (VNum num_3001).

(** ** Sample data *)

Module Sample.

Definition key : option string := Some "sk-test".

Definition clip : uploaded_file :=
  {| buffer := [Byte.x1a; Byte.x45; Byte.xdf; Byte.xa3];
     mimetype := "audio/webm;codecs=opus";
     originalname := "blob" |}.

Definition upload : request :=
  {| method := "POST"; route := Some Stt; headers_origin := None;
     body := VObj ∅; file := Some clip |}.

Definition empty_upload : request :=
  {| method := "POST"; route := Some Stt; headers_origin := None;
     body := VObj ∅; file := None |}.

Definition ask (q : value) : request :=
  {| method := "POST"; route := Some Openai; headers_origin := None;
     body := VObj {[ "question" := q ]}; file := None |}.

Definition ask_nothing : request :=
  {| method := "POST"; route := Some Openai; headers_origin := None;
     body := VObj ∅; file := None |}.

(** A chat completion whose only choice says "42". *)
Definition completion_42 : value :=
  VObj {[ "choices" :=
    VArr [ VObj {[ "message" :=
      VObj (<[ "role" := VStr "assistant" ]> {[ "content" := VStr "42" ]}) ]} ] ]}.

Definition transcript : value := VObj {[ "text" := VStr "hello world" ]}.

Definition quota_error : value :=
  VObj {[ "error" := VObj {[ "message" := VStr "You exceeded your current quota" ]} ]}.

Definition answers (st : nat) (d : value) : outbound → upstream_reply :=
  λ _, Reply st d.

Definition unreachable : outbound → upstream_reply :=
  λ _, NetworkFailure "connect ECONNREFUSED".

(** A cross-origin POST from a page of another site. *)
Definition foreign_ask : request :=
  {| method := "POST"; route := Some Openai;
     headers_origin := Some "https://evil.example";
     body := VObj {[ "question" := VStr "hi" ]}; file := None |}.

(** A request whose body was left unparsed. *)
Definition no_body : request :=
  {| method := "POST"; route := Some Openai; headers_origin := None;
     body := VUndefined; file := None |}.

(** A JSON array where an object is expected. *)
Definition array_body : request :=
  {| method := "POST"; route := Some Openai; headers_origin := None;
     body := VArr [VStr "question"]; file := None |}.

(** A chat completion whose first choice carries no message. *)
Definition completion_without_message : value :=
  VObj {[ "choices" := VArr [ VObj {[ "finish_reason" := VStr "length" ]} ] ]}.

(** The same cross-origin POST, as it arrives. *)
Definition foreign_post : http_request :=
  {| in_method := "POST"; in_route := Some Openai;
     in_origin := Some "https://evil.example";
     in_content := JsonText (Some (VObj {[ "question" := VStr "hi" ]})) |}.

(** A preflight from the same page. *)
Definition preflight_options : http_request :=
  {| in_method := "OPTIONS"; in_route := Some Openai;
     in_origin := Some "https://evil.example";
     in_content := NoBody |}.

(** An upload whose file sits under the field name [file]. *)
Definition misnamed_upload : http_request :=
  {| in_method := "POST"; in_route := Some Stt; in_origin := None;
     in_content := Multipart (VObj ∅) [("file", clip)] |}.

(** A form without any file. *)
Definition fileless_upload : http_request :=
  {| in_method := "POST"; in_route := Some Stt; in_origin := None;
     in_content := Multipart (VObj {[ "note" := VStr "hello" ]}) [] |}.

(** A POST whose body is announced as JSON and is not. *)
Definition malformed_post : http_request :=
  {| in_method := "POST"; in_route := Some Openai; in_origin := None;
     in_content := JsonText None |}.

(** [req.body] where no parser took the body, under Express 4. *)
Definition express4_body : value := VObj ∅.

End Sample.

(** ** The gateway *)

Section Gateway.

(** [process.env.OPENAI_API_KEY]; [None] when the variable is not set. *)
Variable OPENAI_API_KEY : option string.

(** The boundary form-data draws for a [FormData] object. *)
Variable boundary : string.

(** The network: what each outbound call is answered with. *)
Variable upstream : outbound → upstream_reply.

(** [req.body] where no parser took the body: the empty object under
    Express 4, [undefined] under Express 5. *)
Variable unparsed_body : value.

(** [`Bearer ${OPENAI_API_KEY}`] *)
Definition bearer : string :=
  "Bearer " +:+ default "undefined" OPENAI_API_KEY.

(** [if (!OPENAI_API_KEY) { console.error(...) }], run once when the module
    is loaded. *)
Definition check_key : js unit :=
  if negb (truthy (env_value OPENAI_API_KEY)) then
    console_error [VStr "OPENAI_API_KEY is not set in environment variables."]
  else mret ().

(** [await axios.post(url, data, {headers})]: performs the call once;
    fulfils with the response when its status passes [validateStatus],
    rejects with an error carrying the response otherwise, and rejects
    with a bare error when no reply arrives. *)
Definition axios_post (call : outbound) : js axios_response := λ w,
  let w' := {| res := res w; calls := calls w ++ [call]; console := console w |} in
  match upstream call with
  | NetworkFailure msg => (Throw {| message := msg; response := None |}, w')
  | Reply st d =>
      let r := {| status := st; data := d |} in
      if validateStatus st then (Normal r, w')
      else (Throw {| message := "Request failed with status code " +:+ pretty st;
                     response := Some r |}, w')
  end.

(** [formData.getHeaders()] *)
Definition getHeaders : gmap string string :=
  {[ "content-type" := "multipart/form-data; boundary=" +:+ boundary ]}.

(** [error.response ? error.response.data : error.message] *)
Definition error_details (error : js_error) : value :=
  match response error with
  | Some r => data r
  | None => VStr (message error)
  end.

(** The form built from [req.file] by the two [formData.append]. *)
Definition formData (f : uploaded_file) : list form_part :=
  [ {| part_name := "file";
       part_content_of := Buffer (buffer f);
       part_filename := Some "audio.webm";
       part_contentType := Some (mimetype f) |};
    {| part_name := "model";
       part_content_of := Field "whisper-1";
       part_filename := None;
       part_contentType := None |} ].

(** The arguments of the [axios.post] of the transcription route. *)
Definition whisper_call (f : uploaded_file) : outbound :=
  {| url := "https://api.openai.com/v1/audio/transcriptions";
     payload := FormData (formData f);
     headers := getHeaders ∪ {[ "Authorization" := bearer ]} |}.

(** [app.post('/api/stt', upload.single('audio'), async (req, res) => ...)] *)
Definition stt_handler (req : request) : js unit :=
  match file req with
  | None =>
      res_status 400;;
      res_json (VObj {[ "error" := VStr "No audio file provided." ]})
  | Some f =>
      try_catch
        (console_log [VStr "Sending audio to Whisper API..."];;
         whisperResponse ← axios_post (whisper_call f);
         text ← get_prop (data whisperResponse) Text;
         res_json (VObj {[ "transcription" := text ]});;
         text' ← get_prop (data whisperResponse) Text;
         console_log [VStr "Transcription successful:"; text'])
        (λ error,
           console_error [VStr "Error in STT API call:"; error_details error];;
           res_status 500;;
           res_json (VObj (<[ "details" := error_details error ]>
                            {[ "error" := VStr "Failed to transcribe audio." ]})))
  end.

(** The arguments of the [axios.post] of the chat route. *)
Definition chat_call (question : value) : outbound :=
  {| url := "https://api.openai.com/v1/chat/completions";
     payload := JsonData (VObj
       (<[ "model" := VStr "gpt-3.5-turbo" ]>
       (<[ "messages" :=
             VArr [ VObj (<[ "role" := VStr "user" ]>
                           {[ "content" := question ]}) ] ]>
       (<[ "temperature" := VNum num_0_7 ]>
        {[ "max_tokens" := VNum num_250 ]}))));
     headers := <[ "Authorization" := bearer ]>
                  {[ "Content-Type" := "application/json" ]} |}.

(** [openaiResponse.data.choices[0]] *)
Definition first_choice (d : value) : js value :=
  choices ← get_prop d Choices;
  get_index choices 0.

(** [openaiResponse.data.choices[0].message.content] *)
Definition answer_of (d : value) : js value :=
  choice ← first_choice d;
  msg ← get_prop choice Message;
  get_prop msg Content.

(** [app.post('/api/openai', async (req, res) => ...)] *)
Definition openai_handler (req : request) : js unit :=
  question ← get_prop (body req) Question;
  if negb (truthy question) then
    res_status 400;;
    res_json (VObj {[ "error" := VStr "No question provided." ]})
  else
    try_catch
      (console_log [VStr "Sending question to OpenAI API:"; question];;
       openaiResponse ← axios_post (chat_call question);
       content ← answer_of (data openaiResponse);
       res_json (VObj {[ "answer" := content ]});;
       console_log [VStr "OpenAI response received."])
      (λ error,
         console_error [VStr "Error in OpenAI API call:"; error_details error];;
         res_status 500;;
         res_json (VObj (<[ "details" := error_details error ]>
                          {[ "error" := VStr "Failed to get answer from AI." ]}))).

(** *** Cross-origin layer and routing *)

Record cors_options := {
  origin : string;
  methods : list string;
  allowedHeaders : list string
}.

(** The object passed to [cors(...)]. *)
Definition corsOptions : cors_options :=
  {| origin := "https://voice-ai-frontend-q3c3.onrender.com";
     methods := ["GET"; "POST"];
     allowedHeaders := ["Content-Type"] |}.

(** The middleware the cors package builds from an options object with a
    fixed origin string: a preflight is answered on the spot, any other
    request gets the origin headers and goes on to [next]. *)
Definition cors (o : cors_options) (req : request) (next : js unit) : js unit :=
  if String.eqb (method req) "OPTIONS" then
    res_setHeader "Access-Control-Allow-Origin" (origin o);;
    res_setHeader "Vary" "Origin";;
    res_setHeader "Access-Control-Allow-Methods" (String.concat "," (methods o));;
    res_setHeader "Access-Control-Allow-Headers" (String.concat "," (allowedHeaders o));;
    res_status 204;;
    res_setHeader "Content-Length" "0";;
    res_end
  else
    res_setHeader "Access-Control-Allow-Origin" (origin o);;
    res_setHeader "Vary" "Origin";;
    next.

(** The route callback of an endpoint. *)
Definition handler (e : endpoint) : request → js unit :=
  match e with
  | Stt => stt_handler
  | Openai => openai_handler
  end.

(** [express.json()]: [req.body] after the middleware, or [None] when it
    hands an error on. Only a body announced as JSON is parsed, and in the
    default strict mode only an object or an array is accepted. *)
Definition express_json (h : http_request) : option value :=
  match in_content h with
  | JsonText (Some (VObj m)) => Some (VObj m)
  | JsonText (Some (VArr l)) => Some (VArr l)
  | JsonText _ => None
  | _ => Some unparsed_body
  end.

(** The request object once [express.json()] has set [req.body]. *)
Definition base_request (h : http_request) (b : value) : request :=
  {| method := in_method h; route := in_route h;
     headers_origin := in_origin h; body := b; file := None |}.

(** multer's file filter for [single(name)]: [left] files are still expected
    under [name]; a file under another name, or one more than expected, is
    refused. *)
Fixpoint take_files (name : string) (left : nat)
    (files : list (string * uploaded_file)) (taken : option uploaded_file)
    : option (option uploaded_file) :=
  match files with
  | [] => Some taken
  | (field, f) :: rest =>
      if String.eqb field name then
        match left with
        | 0 => None
        | S n => take_files name n rest (Some f)
        end
      else None
  end.

(** [upload.single(name)]: the request after the middleware, or [None] when
    it hands an error on. A body that is not multipart is passed through
    untouched. *)
Definition upload_single (name : string) (h : http_request) (req : request)
    : option request :=
  match in_content h with
  | Multipart fields files =>
      match take_files name 1 files None with
      | Some f =>
          Some {| method := method req; route := route req;
                  headers_origin := headers_origin req;
                  body := fields; file := f |}
      | None => None
      end
  | _ => Some req
  end.

(** Both routes are registered with [app.post], the transcription route
    behind [upload.single('audio')]; anything else falls through to
    Express' 404, and an error of the upload middleware to its 500. *)
Definition router (h : http_request) (req : request) : js unit :=
  match route req with
  | Some e =>
      if String.eqb (method req) "POST" then
        match e with
        | Stt =>
            match upload_single "audio" h req with
            | Some req' => handler Stt req'
            | None => error_page 500
            end
        | Openai => handler Openai req
        end
      else error_page 404
  | None => error_page 404
  end.

(** The application: [app.use(express.json())], then [app.use(cors(...))],
    then the routes. A body [express.json()] refuses is answered 400 before
    anything else runs. *)
Definition app (h : http_request) : js unit :=
  match express_json h with
  | Some b => cors corsOptions (base_request h b) (router h (base_request h b))
  | None => error_page 400
  end.

(** *** Notions used in the statements *)

(** The fixed error string of each route. *)
Definition fixed_error (e : endpoint) : string :=
  match e with
  | Stt => "Failed to transcribe audio."
  | Openai => "Failed to get answer from AI."
  end.

(** When a reply counts as a failed upstream call, and what it leaves to
    report: the upstream's error body for a status outside 2xx, the local
    error message when no reply arrived. *)
Definition failure (r : upstream_reply) : option value :=
  match r with
  | NetworkFailure msg => Some (VStr msg)
  | Reply st d => if validateStatus st then None else Some d
  end.

(** [issues e req call]: the request passes the validation of route [e],
    whose single upstream call is [call]. *)
Definition issues (e : endpoint) (req : request) (call : outbound) : Prop :=
  match e with
  | Stt => ∃ f, file req = Some f ∧ call = whisper_call f
  | Openai => ∃ q, eval (get_prop (body req) Question) = Normal q
                   ∧ truthy q = true ∧ call = chat_call q
  end.

(** The upstream body has no first choice: [data.choices[0]] cannot be
    read or is [undefined] (no [choices], or an empty list). *)
Definition no_first_choice (d : value) : bool :=
  match eval (first_choice d) with
  | Normal VUndefined | Throw _ => true
  | Normal _ => false
  end.

(** A middleware that settles the request itself: what it does is the same
    whatever comes after it. *)
Definition answers_itself (mw : js unit → js unit) : Prop :=
  ∀ next next' w, mw next w = mw next' w.

(** The reading of the cross-origin rule under which a request from
    another origin is turned away before the route callbacks. *)
Definition rejects_foreign_origins : Prop :=
  ∀ req o, headers_origin req = Some o → o ≠ origin corsOptions →
    answers_itself (cors corsOptions req).

(** The request as the callback of route [e] receives it, when the
    middleware in front of the callback lets it through. *)
Definition callback_request (h : http_request) (e : endpoint) : option request :=
  match express_json h with
  | Some b =>
      match e with
      | Stt => upload_single "audio" h (base_request h b)
      | Openai => Some (base_request h b)
      end
  | None => None
  end.

(** The file parts of a request. *)
Definition files_of (c : content) : list (string * uploaded_file) :=
  match c with
  | Multipart _ files => files
  | _ => []
  end.

(** The request holds a file under the field name [audio]. *)
Definition carries_audio (h : http_request) : bool :=
  existsb (λ part, String.eqb (fst part) "audio") (files_of (in_content h)).

(** The reading of the rule of the transcription route under which every
    request without such a file meets the 400 reply of the callback. *)
Definition rejects_all_without_audio : Prop :=
  ∀ h, in_method h = "POST" → in_route h = Some Stt →
    carries_audio h = false →
    ∃ w, run (app h) = (Normal (), w)
      ∧ statusCode (res w) = 400
      ∧ sent (res w) = Json (VObj {[ "error" := VStr "No audio file provided." ]})
      ∧ calls w = [].

(** The world a route callback starts in: the response as the cross-origin
    layer leaves it for a request that is not a preflight. *)
Definition cors_world : world :=
  {| res := {| statusCode := 200;
               res_headers :=
                 <[ "Vary" := "Origin" ]>
                 {[ "Access-Control-Allow-Origin" := origin corsOptions ]};
               sent := NotSent |};
     calls := []; console := [] |}.

(** The key under which each route returns its result. *)
Definition result_key (e : endpoint) : string :=
  match e with
  | Stt => "transcription"
  | Openai => "answer"
  end.

(** The four ways a route callback can end when it starts in world [w]:
    the read of [req.body] throws past the callback; the request is turned
    down; the upstream succeeded and its result is returned; or the call or
    the reading of its result failed and the failure is reported. *)
Inductive handled (e : endpoint) (req : request) (w : world) :
    completion unit * world → Prop :=
  | handled_uncaught (err : js_error) :
      e = Openai → eval (get_prop (body req) Question) = Throw err →
      handled e req w (Throw err, w)
  | handled_rejected (msg : string) :
      (∀ call, ¬ issues e req call) →
      handled e req w
        (Normal (),
         {| res := {| statusCode := 400;
                      res_headers := res_headers (res w);
                      sent := Json (VObj {[ "error" := VStr msg ]}) |};
            calls := calls w; console := console w |})
  | handled_answered (call : outbound) (st : nat) (d v : value)
        (l1 l2 : list value) :
      issues e req call →
      upstream call = Reply st d → validateStatus st = true →
      handled e req w
        (Normal (),
         {| res := {| statusCode := statusCode (res w);
                      res_headers := res_headers (res w);
                      sent := Json (VObj {[ result_key e := v ]}) |};
            calls := calls w ++ [call];
            console := console w ++ [ConsoleLog l1; ConsoleLog l2] |})
  | handled_failed (call : outbound) (details : value) (l1 : list value)
        (label : value) :
      issues e req call →
      handled e req w
        (Normal (),
         {| res := {| statusCode := 500;
                      res_headers := res_headers (res w);
                      sent := Json (VObj (<[ "details" := details ]>
                                            {[ "error" := VStr (fixed_error e) ]})) |};
            calls := calls w ++ [call];
            console := console w ++ [ConsoleLog l1; ConsoleError [label; details]] |}).

(** *** Basic facts *)

(** Property reads never touch the world. *)
Lemma get_prop_pure (v : value) (p : prop) (w : world) :
  get_prop v p w = (eval (get_prop v p), w).
Proof. by destruct v. Qed.

Lemma get_index_pure (v : value) (i : nat) (w : world) :
  get_index v i w = (eval (get_index v i), w).
Proof. by destruct v. Qed.

Lemma first_choice_pure (d : value) (w : world) :
  first_choice d w = (eval (first_choice d), w).
Proof.
  unfold eval, run, first_choice, mbind, js_bind.
  rewrite !(get_prop_pure d Choices _).
  destruct (eval (get_prop d Choices)) as [cs|e]; [|done]; simpl.
  by rewrite !(get_index_pure cs 0 _).
Qed.

Lemma answer_of_pure (d : value) (w : world) :
  answer_of d w = (eval (answer_of d), w).
Proof.
  unfold eval, run, answer_of, mbind, js_bind.
  rewrite !(first_choice_pure d _).
  destruct (eval (first_choice d)) as [c|e]; [|done]; simpl.
  rewrite !(get_prop_pure c Message _).
  destruct (eval (get_prop c Message)) as [m|e]; [|done]; simpl.
  by rewrite !(get_prop_pure m Content _).
Qed.

(** Reading a property of an object is a lookup. *)
Lemma get_prop_obj (m : gmap string value) (p : prop) :
  eval (get_prop (VObj m) p) = Normal (default VUndefined (m !! prop_name p)).
Proof. done. Qed.

(** A fulfilled call hands its response over and is recorded once. *)
Lemma axios_post_fulfilled (call : outbound) (st : nat) (d : value) (w : world) :
  upstream call = Reply st d → validateStatus st = true →
  axios_post call w =
    (Normal {| status := st; data := d |},
     {| res := res w; calls := calls w ++ [call]; console := console w |}).
Proof. intros Hu Hs. unfold axios_post. by rewrite Hu, Hs. Qed.

(** The validation step of the chat route, for a truthy question. *)
Lemma openai_handler_accepts (req : request) (q : value) :
  eval (get_prop (body req) Question) = Normal q → truthy q = true →
  run (openai_handler req) =
    try_catch
      (console_log [VStr "Sending question to OpenAI API:"; q];;
       openaiResponse ← axios_post (chat_call q);
       content ← answer_of (data openaiResponse);
       res_json (VObj {[ "answer" := content ]});;
       console_log [VStr "OpenAI response received."])
      (λ error,
         console_error [VStr "Error in OpenAI API call:"; error_details error];;
         res_status 500;;
         res_json (VObj (<[ "details" := error_details error ]>
                          {[ "error" := VStr "Failed to get answer from AI." ]})))
      initial_world.
Proof.
  intros Hq Ht. unfold run, openai_handler, mbind at 1, js_bind at 1.
  rewrite get_prop_pure, Hq. by rewrite Ht.
Qed.

(** The validation step of the chat route, for a falsy question. *)
Lemma openai_handler_rejects (req : request) (q : value) :
  eval (get_prop (body req) Question) = Normal q → truthy q = false →
  run (openai_handler req) =
    (Normal (),
     {| res := {| statusCode := 400; res_headers := ∅;
                  sent := Json (VObj {[ "error" := VStr "No question provided." ]}) |};
        calls := []; console := [] |}).
Proof.
  intros Hq Ht. unfold run, openai_handler, mbind at 1, js_bind at 1.
  rewrite get_prop_pure, Hq. by rewrite Ht.
Qed.

(** *** The chat route *)

(** C1: when the upstream chat completion succeeds, the gateway answers
    200 with [{answer: c}], [c] being the message content of the first
    choice of the upstream response. *)
Theorem openai_success (req : request) (q : value) (st : nat) (d c : value) :
  eval (get_prop (body req) Question) = Normal q → truthy q = true →
  upstream (chat_call q) = Reply st d → validateStatus st = true →
  eval (answer_of d) = Normal c →
  ∃ w, run (openai_handler req) = (Normal (), w)
       ∧ statusCode (res w) = 200
       ∧ sent (res w) = Json (VObj {[ "answer" := c ]}).
Proof.
  intros Hq Ht Hu Hs Hc. rewrite (openai_handler_accepts req q Hq Ht).
  unfold try_catch, mbind, js_bind, console_log, emit. simpl.
  rewrite (axios_post_fulfilled _ st d _ Hu Hs). simpl.
  rewrite answer_of_pure, Hc. simpl.
  eexists; split; [reflexivity|done].
Qed.

(** C4: a body whose [question] is absent, the empty string or [null] is
    answered exactly 400 [{error: "No question provided."}], and no
    upstream call is made. *)
Theorem openai_rejects_missing_question (req : request) (m : gmap string value) :
  body req = VObj m →
  m !! "question" = None ∨ m !! "question" = Some (VStr "")
    ∨ m !! "question" = Some VNull →
  ∃ w, run (openai_handler req) = (Normal (), w)
       ∧ statusCode (res w) = 400
       ∧ sent (res w) = Json (VObj {[ "error" := VStr "No question provided." ]})
       ∧ calls w = [].
Proof.
  intros Hb Hm.
  assert (∃ q, eval (get_prop (body req) Question) = Normal q
               ∧ truthy q = false) as (q & Hq & Ht).
  { rewrite Hb, get_prop_obj. change (prop_name Question) with "question".
    destruct Hm as [-> | [-> | ->]]; eexists; split; reflexivity || done. }
  rewrite (openai_handler_rejects req q Hq Ht).
  eexists; split; [reflexivity|done].
Qed.

(** *** The transcription route *)

(** The validation step of the transcription route, for a present file. *)
Lemma stt_handler_accepts (req : request) (f : uploaded_file) :
  file req = Some f →
  run (stt_handler req) =
    try_catch
      (console_log [VStr "Sending audio to Whisper API..."];;
       whisperResponse ← axios_post (whisper_call f);
       text ← get_prop (data whisperResponse) Text;
       res_json (VObj {[ "transcription" := text ]});;
       text' ← get_prop (data whisperResponse) Text;
       console_log [VStr "Transcription successful:"; text'])
      (λ error,
         console_error [VStr "Error in STT API call:"; error_details error];;
         res_status 500;;
         res_json (VObj (<[ "details" := error_details error ]>
                          {[ "error" := VStr "Failed to transcribe audio." ]})))
      initial_world.
Proof. intros Hf. unfold run, stt_handler. by rewrite Hf. Qed.

(** C2: when the upstream transcription succeeds with [{text: s}], the
    gateway answers 200 with [{transcription: s}], the text untouched. *)
Theorem stt_success (req : request) (f : uploaded_file) (st : nat) (d s : value) :
  file req = Some f →
  upstream (whisper_call f) = Reply st d → validateStatus st = true →
  eval (get_prop d Text) = Normal s →
  ∃ w, run (stt_handler req) = (Normal (), w)
       ∧ statusCode (res w) = 200
       ∧ sent (res w) = Json (VObj {[ "transcription" := s ]}).
Proof.
  intros Hf Hu Hs Ht. rewrite (stt_handler_accepts req f Hf).
  unfold try_catch, mbind, js_bind, console_log, emit. simpl.
  rewrite (axios_post_fulfilled _ st d _ Hu Hs). simpl.
  rewrite !get_prop_pure, Ht. simpl. rewrite !get_prop_pure, Ht. simpl.
  eexists; split; [reflexivity|done].
Qed.

(** When [req.file] is undefined the callback answers exactly 400
    [{error: "No audio file provided."}], and no upstream call is made. *)
Lemma stt_rejects_missing_file (req : request) :
  file req = None →
  ∃ w, run (stt_handler req) = (Normal (), w)
       ∧ statusCode (res w) = 400
       ∧ sent (res w) = Json (VObj {[ "error" := VStr "No audio file provided." ]})
       ∧ calls w = [].
Proof.
  intros Hf. unfold run, stt_handler. rewrite Hf.
  eexists; split; [reflexivity|done].
Qed.

(** Whatever the upstream does, the transcription route calls it once. *)
Lemma stt_calls_once (req : request) (f : uploaded_file) :
  file req = Some f →
  calls (snd (run (stt_handler req))) = [whisper_call f].
Proof.
  intros Hf. rewrite (stt_handler_accepts req f Hf).
  unfold try_catch, mbind, js_bind, console_log, emit, axios_post. simpl.
  destruct (upstream (whisper_call f)) as [msg|st d]; [done|].
  destruct (validateStatus st); [|done].
  by destruct d.
Qed.

(** The multipart headers do not displace the credential. *)
Lemma whisper_call_authorization (f : uploaded_file) :
  headers (whisper_call f) !! "Authorization" = Some bearer.
Proof.
  unfold whisper_call, getHeaders; simpl.
  rewrite lookup_union_r; [apply lookup_singleton_eq|].
  by apply lookup_singleton_ne.
Qed.

(** C7: for a present audio file the gateway issues exactly one multipart
    call to the transcription endpoint: a [file] part holding the inbound
    bytes, named audio.webm, with the inbound media type; a [model] part
    with the fixed model; and the bearer credential header. *)
Theorem stt_outbound_call (req : request) (f : uploaded_file) :
  file req = Some f →
  ∃ call, calls (snd (run (stt_handler req))) = [call]
    ∧ url call = "https://api.openai.com/v1/audio/transcriptions"
    ∧ payload call = FormData
        [ {| part_name := "file";
             part_content_of := Buffer (buffer f);
             part_filename := Some "audio.webm";
             part_contentType := Some (mimetype f) |};
          {| part_name := "model";
             part_content_of := Field "whisper-1";
             part_filename := None;
             part_contentType := None |} ]
    ∧ headers call !! "Authorization"
        = Some ("Bearer " +:+ default "undefined" OPENAI_API_KEY)
    ∧ (∀ k, OPENAI_API_KEY = Some k →
         headers call !! "Authorization" = Some ("Bearer " +:+ k)).
Proof.
  intros Hf. exists (whisper_call f).
  split; [by apply stt_calls_once|].
  split; [done|]. split; [done|].
  split; [apply whisper_call_authorization|].
  intros k Hk. rewrite whisper_call_authorization. unfold bearer. by rewrite Hk.
Qed.

(** *** Upstream failures *)

(** A failed call is rejected with an error whose details are those of
    [failure], and is recorded once. *)
Lemma axios_post_rejected (call : outbound) (details : value) (w : world) :
  failure (upstream call) = Some details →
  ∃ error, error_details error = details
    ∧ axios_post call w =
        (Throw error,
         {| res := res w; calls := calls w ++ [call]; console := console w |}).
Proof.
  unfold failure, axios_post.
  destruct (upstream call) as [msg|st d].
  - intros [= <-]. eexists; split; [|reflexivity]; done.
  - destruct (validateStatus st); [done|].
    intros [= <-]. eexists; split; [|reflexivity]; done.
Qed.

(** C3: on either route a failed upstream call (no reply, or a status
    outside 2xx) is answered 500 with the route's fixed error string and
    [details] holding the upstream's error body when there is one and the
    local error message otherwise; the call is not repeated. *)
Theorem upstream_failure_reported
    (e : endpoint) (req : request) (call : outbound) (details : value) :
  issues e req call →
  failure (upstream call) = Some details →
  ∃ w, run (handler e req) = (Normal (), w)
       ∧ statusCode (res w) = 500
       ∧ sent (res w) = Json (VObj (<[ "details" := details ]>
                                     {[ "error" := VStr (fixed_error e) ]}))
       ∧ calls w = [call].
Proof.
  intros Hi Hf. destruct e; simpl in *.
  - destruct Hi as (f & Hfile & ->).
    rewrite (stt_handler_accepts req f Hfile).
    unfold try_catch, mbind, js_bind, console_log, emit. simpl.
    destruct (axios_post_rejected _ details
      {| res := initial_res; calls := [];
         console := [ConsoleLog [VStr "Sending audio to Whisper API..."]] |} Hf)
      as (error & <- & ->).
    simpl. eexists; split; [reflexivity|done].
  - destruct Hi as (q & Hq & Ht & ->).
    rewrite (openai_handler_accepts req q Hq Ht).
    unfold try_catch, mbind, js_bind, console_log, emit. simpl.
    destruct (axios_post_rejected _ details
      {| res := initial_res; calls := [];
         console := [ConsoleLog [VStr "Sending question to OpenAI API:"; q]] |} Hf)
      as (error & <- & ->).
    simpl. eexists; split; [reflexivity|done].
Qed.

(** *** The call of the chat route *)

(** Whatever the upstream does, the chat route calls it once. *)
Lemma openai_calls_once (req : request) (q : value) :
  eval (get_prop (body req) Question) = Normal q → truthy q = true →
  calls (snd (run (openai_handler req))) = [chat_call q].
Proof.
  intros Hq Ht. rewrite (openai_handler_accepts req q Hq Ht).
  unfold try_catch, mbind at 1 2, js_bind at 1 2, console_log, emit, axios_post.
  simpl.
  destruct (upstream (chat_call q)) as [msg|st d]; [done|].
  destruct (validateStatus st); [|done].
  unfold mbind, js_bind. simpl. rewrite answer_of_pure.
  by destruct (eval (answer_of d)).
Qed.

Lemma chat_call_authorization (q : value) :
  headers (chat_call q) !! "Authorization" = Some bearer.
Proof. apply lookup_insert_eq. Qed.

(** C6: for a present question [q] the gateway issues exactly one call to
    the chat-completion endpoint, whose body has the fixed model, a single
    user message with content [q], temperature 0.7 and max_tokens 250, and
    which carries the bearer credential. *)
Theorem openai_outbound_call (req : request) (q : value) :
  eval (get_prop (body req) Question) = Normal q → truthy q = true →
  ∃ call p, calls (snd (run (openai_handler req))) = [call]
    ∧ url call = "https://api.openai.com/v1/chat/completions"
    ∧ payload call = JsonData (VObj p)
    ∧ dom p = {[ "model"; "messages"; "temperature"; "max_tokens" ]}
    ∧ p !! "model" = Some (VStr "gpt-3.5-turbo")
    ∧ p !! "messages"
        = Some (VArr [ VObj (<[ "role" := VStr "user" ]> {[ "content" := q ]}) ])
    ∧ p !! "temperature" = Some (VNum num_0_7)
    ∧ p !! "max_tokens" = Some (VNum num_250)
    ∧ headers call !! "Authorization"
        = Some ("Bearer " +:+ default "undefined" OPENAI_API_KEY)
    ∧ (∀ k, OPENAI_API_KEY = Some k →
         headers call !! "Authorization" = Some ("Bearer " +:+ k)).
Proof.
  intros Hq Ht. eexists (chat_call q), _.
  split; [by apply openai_calls_once|].
  split; [done|]. split; [reflexivity|].
  split; [rewrite !dom_insert_L, dom_singleton_L; set_solver|].
  split; [by simplify_map_eq|]. split; [by simplify_map_eq|].
  split; [by simplify_map_eq|]. split; [by simplify_map_eq|].
  split; [apply chat_call_authorization|].
  intros k Hk. rewrite chat_call_authorization. unfold bearer. by rewrite Hk.
Qed.

(** *** A reply without a first choice *)

(** What a property read throws is a plain error, without [response]. *)
Lemma get_prop_throws (v : value) (p : prop) (e : js_error) :
  eval (get_prop v p) = Throw e → response e = None.
Proof. destruct v; simpl; intros [= <-] || done; done. Qed.

Lemma get_index_throws (v : value) (i : nat) (e : js_error) :
  eval (get_index v i) = Throw e → response e = None.
Proof. destruct v; simpl; intros [= <-] || done; done. Qed.

Lemma first_choice_throws (d : value) (e : js_error) :
  eval (first_choice d) = Throw e → response e = None.
Proof.
  unfold eval, run, first_choice, mbind, js_bind.
  rewrite (get_prop_pure d Choices _).
  destruct (eval (get_prop d Choices)) as [cs|e'] eqn:Hcs; simpl.
  - rewrite (get_index_pure cs 0 _). simpl. apply get_index_throws.
  - intros [= <-]. by apply get_prop_throws in Hcs.
Qed.

Lemma answer_of_no_first_choice (d : value) :
  no_first_choice d = true →
  ∃ msg, eval (answer_of d) = Throw {| message := msg; response := None |}.
Proof.
  unfold no_first_choice, eval at 2, run, answer_of, mbind, js_bind.
  rewrite (first_choice_pure d _).
  destruct (eval (first_choice d)) as [c|e] eqn:Hc; simpl.
  - destruct c; try discriminate. intros _. by eexists.
  - intros _. apply first_choice_throws in Hc.
    destruct e as [msg r]; simpl in *. subst r. by eexists.
Qed.

(** C9: when the upstream answers 2xx with a body that has no first
    choice, the handler still completes: the failed extraction is caught
    and answered 500 with the fixed error string and [details] holding the
    message of the local error. *)
Theorem openai_no_first_choice (req : request) (q : value) (st : nat) (d : value) :
  eval (get_prop (body req) Question) = Normal q → truthy q = true →
  upstream (chat_call q) = Reply st d → validateStatus st = true →
  no_first_choice d = true →
  ∃ w msg, run (openai_handler req) = (Normal (), w)
    ∧ eval (answer_of d) = Throw {| message := msg; response := None |}
    ∧ statusCode (res w) = 500
    ∧ sent (res w) = Json (VObj (<[ "details" := VStr msg ]>
                                  {[ "error" := VStr "Failed to get answer from AI." ]})).
Proof.
  intros Hq Ht Hu Hs Hd.
  destruct (answer_of_no_first_choice d Hd) as [msg Hmsg].
  rewrite (openai_handler_accepts req q Hq Ht).
  unfold try_catch, mbind, js_bind, console_log, emit. simpl.
  rewrite (axios_post_fulfilled _ st d _ Hu Hs). simpl.
  rewrite answer_of_pure, Hmsg. simpl.
  eexists _, msg; split; [reflexivity|done].
Qed.

(** *** What the validation looks at *)

(** C10: the check on [question] is a truthiness test and nothing more: a
    truthy value of any type (a non-zero number, an object, ...) passes and
    is handed on unchanged as the content of the user message, and the
    falsy values 0 and false are answered 400 like a missing question. *)
Theorem validation_tests_truthiness_only :
  (∀ o, truthy (VObj o) = true)
  ∧ (∀ l, truthy (VArr l) = true)
  ∧ (∀ s mant e, truthy (VNum (S754_finite s mant e)) = true)
  ∧ truthy (VNum num_0) = false
  ∧ truthy (VBool false) = false
  ∧ ∀ (req : request) (m : gmap string value) (q : value),
      body req = VObj m → m !! "question" = Some q →
      (truthy q = true →
         ∃ call p, calls (snd (run (openai_handler req))) = [call]
           ∧ payload call = JsonData (VObj p)
           ∧ p !! "messages"
               = Some (VArr [ VObj (<[ "role" := VStr "user" ]>
                                      {[ "content" := q ]}) ]))
      ∧ (truthy q = false →
         ∃ w, run (openai_handler req) = (Normal (), w)
           ∧ statusCode (res w) = 400
           ∧ sent (res w)
               = Json (VObj {[ "error" := VStr "No question provided." ]})
           ∧ calls w = []).
Proof.
  do 5 (split; [done|]).
  intros req m q Hb Hm.
  assert (eval (get_prop (body req) Question) = Normal q) as Hq.
  { rewrite Hb, get_prop_obj. change (prop_name Question) with "question".
    by rewrite Hm. }
  split; intros Ht.
  - eexists (chat_call q), _.
    split; [by apply openai_calls_once|]. split; [reflexivity|].
    by simplify_map_eq.
  - rewrite (openai_handler_rejects req q Hq Ht).
    eexists; split; [reflexivity|done].
Qed.

(** *** The cross-origin layer *)

(** C8: the cross-origin layer does not look at the origin of a request.
    A preflight is answered by the layer itself with 204, naming the one
    configured origin, the methods GET and POST and the request header
    Content-Type; every other request, whatever its origin, is passed on
    to the routes with the configured origin in
    Access-Control-Allow-Origin. *)
Theorem cors_policy (req : request) (next : js unit) :
  (method req = "OPTIONS" →
     run (cors corsOptions req next) =
       (Normal (),
        {| res := {| statusCode := 204;
                     res_headers :=
                       <[ "Content-Length" := "0" ]>
                       (<[ "Access-Control-Allow-Headers" := "Content-Type" ]>
                       (<[ "Access-Control-Allow-Methods" := "GET,POST" ]>
                       (<[ "Vary" := "Origin" ]>
                        {[ "Access-Control-Allow-Origin" :=
                             "https://voice-ai-frontend-q3c3.onrender.com" ]})));
                     sent := Ended |};
           calls := []; console := [] |}))
  ∧ (method req ≠ "OPTIONS" →
     run (cors corsOptions req next) =
       next {| res := {| statusCode := 200;
                         res_headers :=
                           <[ "Vary" := "Origin" ]>
                           {[ "Access-Control-Allow-Origin" :=
                                "https://voice-ai-frontend-q3c3.onrender.com" ]};
                         sent := NotSent |};
               calls := []; console := [] |}).
Proof.
  unfold run, cors. split.
  - intros ->. reflexivity.
  - intros Hne. apply String.eqb_neq in Hne. rewrite Hne. reflexivity.
Qed.

(** *** How a route callback can end *)

(** Started on a response that has not been sent, a route callback ends in
    one of the four ways of [handled]. *)
Local Ltac ends_with ctor call :=
  unfold res_json, res_status, set_res; simpl;
  rewrite <- ?app_assoc; simpl;
  lazymatch goal with
  | |- handled ?e ?r ?w _ => by eapply (ctor e r w call)
  end.

Lemma handler_handled (e : endpoint) (req : request) (w : world) :
  sent (res w) = NotSent → handled e req w (handler e req w).
Proof.
  intros Hs. destruct w as [[sc hs sn] cs ls]; simpl in Hs; subst sn.
  destruct e; simpl.
  - unfold stt_handler. destruct (file req) as [f|] eqn:Hf.
    + assert (issues Stt req (whisper_call f)) as Hi by (by exists f).
      unfold try_catch, mbind, js_bind, console_log, emit, axios_post; simpl.
      destruct (upstream (whisper_call f)) as [msg|st d] eqn:Hu; simpl.
      * ends_with handled_failed (whisper_call f).
      * destruct (validateStatus st) eqn:Hv; simpl.
        -- destruct d; simpl;
             first [ ends_with handled_answered (whisper_call f)
                   | ends_with handled_failed (whisper_call f) ].
        -- ends_with handled_failed (whisper_call f).
    + unfold mbind, js_bind, res_json, res_status, set_res; simpl.
      lazymatch goal with
      | |- handled _ _ ?w _ =>
          apply (handled_rejected Stt req w "No audio file provided.")
      end.
      intros call (f & Hf' & _). congruence.
  - unfold openai_handler, mbind at 1, js_bind at 1. rewrite get_prop_pure.
    destruct (eval (get_prop (body req) Question)) as [q|err] eqn:Hq; simpl.
    + destruct (truthy q) eqn:Ht; simpl.
      * assert (issues Openai req (chat_call q)) as Hi by (by exists q).
        unfold try_catch, mbind, js_bind, console_log, emit, axios_post; simpl.
        destruct (upstream (chat_call q)) as [msg|st d] eqn:Hu; simpl.
        -- ends_with handled_failed (chat_call q).
        -- destruct (validateStatus st) eqn:Hv; simpl.
           ++ rewrite answer_of_pure.
              destruct (eval (answer_of d)) as [c|err]; simpl.
              ** ends_with handled_answered (chat_call q).
              ** ends_with handled_failed (chat_call q).
           ++ ends_with handled_failed (chat_call q).
      * unfold mbind, js_bind, res_json, res_status, set_res; simpl.
        lazymatch goal with
        | |- handled _ _ ?w _ =>
            apply (handled_rejected Openai req w "No question provided.")
        end.
        intros call (q' & Hq' & Ht' & _). congruence.
    + by apply handled_uncaught.
Qed.

(** What the two reads of the callbacks can throw. *)
Lemma get_prop_throw_inv (v : value) (p : prop) (err : js_error) :
  eval (get_prop v p) = Throw err → v = VUndefined ∨ v = VNull.
Proof. destruct v; simpl; try discriminate; auto. Qed.

Lemma answer_of_throws (d : value) (err : js_error) :
  eval (answer_of d) = Throw err → response err = None.
Proof.
  unfold eval at 1, run, answer_of, mbind, js_bind.
  rewrite (first_choice_pure d _).
  destruct (eval (first_choice d)) as [c|e] eqn:Hc; simpl.
  - rewrite (get_prop_pure c Message _).
    destruct (eval (get_prop c Message)) as [m|e] eqn:Hm; simpl.
    + rewrite (get_prop_pure m Content _). simpl. apply get_prop_throws.
    + intros [= <-]. by apply get_prop_throws in Hm.
  - intros [= <-]. by apply first_choice_throws in Hc.
Qed.

(** A request passes the validation of a route with one call only. *)
Lemma issues_functional (e : endpoint) (req : request) (c1 c2 : outbound) :
  issues e req c1 → issues e req c2 → c1 = c2.
Proof.
  destruct e; simpl.
  - intros (f1 & H1 & ->) (f2 & H2 & ->). congruence.
  - intros (q1 & H1 & _ & ->) (q2 & H2 & _ & ->). congruence.
Qed.

(** The application either settles the request before any route callback,
    without an upstream call, or runs the callback of the matched route on
    the request the middleware hands it. *)
Lemma app_cases (h : http_request) :
  (∃ w, run (app h) = (Normal (), w)
        ∧ calls w = [] ∧ console w = []
        ∧ ¬ (in_method h = "POST"
             ∧ ∃ e req, in_route h = Some e ∧ callback_request h e = Some req))
  ∨ (in_method h = "POST"
     ∧ ∃ e req, in_route h = Some e ∧ callback_request h e = Some req
                ∧ run (app h) = handler e req cors_world).
Proof.
  unfold app, callback_request, run.
  destruct (express_json h) as [b|] eqn:Hj.
  - unfold cors. simpl.
    destruct (String.eqb (in_method h) "OPTIONS") eqn:Ho.
    { left. eexists; split; [reflexivity|]. simpl.
      do 2 (split; [done|]). intros [Hm _]. by rewrite Hm in Ho. }
    unfold mbind, js_bind, res_setHeader, set_res, router; simpl.
    destruct (in_route h) as [e|] eqn:Hr.
    + destruct (String.eqb (in_method h) "POST") eqn:Hp.
      * apply String.eqb_eq in Hp. destruct e.
        -- destruct (upload_single "audio" h (base_request h b)) as [req|] eqn:Hu.
           ++ right. split; [done|]. by exists Stt, req.
           ++ left. eexists; split; [reflexivity|]. simpl.
              do 2 (split; [done|]).
              intros (_ & e & req & [= <-] & Hc). congruence.
        -- right. split; [done|]. by exists Openai, (base_request h b).
      * left. eexists; split; [reflexivity|]. simpl.
        do 2 (split; [done|]). intros [Hm _]. by rewrite Hm in Hp.
    + left. eexists; split; [reflexivity|]. simpl.
      do 2 (split; [done|]). by intros (_ & e & req & ? & _).
  - left. eexists; split; [reflexivity|]. simpl.
    do 2 (split; [done|]). by intros (_ & e & req & _ & ?).
Qed.

(** *** Replies that cannot be read *)

(** X1: when the transcription upstream answers 2xx with a body whose
    [text] cannot be read, which is the case exactly for a [null] (or
    undefined) body, the error is caught and answered 500 with the fixed
    error string and the message of the local error as [details]. *)
Theorem stt_unreadable_reply
    (req : request) (f : uploaded_file) (st : nat) (d : value) (err : js_error) :
  file req = Some f →
  upstream (whisper_call f) = Reply st d → validateStatus st = true →
  eval (get_prop d Text) = Throw err →
  (d = VNull ∨ d = VUndefined)
  ∧ ∃ w, run (stt_handler req) = (Normal (), w)
      ∧ statusCode (res w) = 500
      ∧ sent (res w) = Json (VObj (<[ "details" := VStr (message err) ]>
                                    {[ "error" := VStr "Failed to transcribe audio." ]}))
      ∧ calls w = [whisper_call f].
Proof.
  intros Hf Hu Hs Ht. split.
  { apply get_prop_throw_inv in Ht. tauto. }
  pose proof (get_prop_throws _ _ _ Ht) as Hr.
  rewrite (stt_handler_accepts req f Hf).
  unfold try_catch, mbind, js_bind, console_log, emit. simpl.
  rewrite (axios_post_fulfilled _ st d _ Hu Hs). simpl.
  rewrite get_prop_pure, Ht. simpl.
  unfold error_details. rewrite Hr.
  eexists; split; [reflexivity|done].
Qed.

(** X2: when the chat upstream answers 2xx and reading
    [data.choices[0].message.content] throws for whatever reason (a first
    choice without a message just as well as no first choice), the error is
    caught and answered 500 with the message of the local error as
    [details]; the upstream has been called once. *)
Theorem openai_unreadable_reply
    (req : request) (q : value) (st : nat) (d : value) (err : js_error) :
  eval (get_prop (body req) Question) = Normal q → truthy q = true →
  upstream (chat_call q) = Reply st d → validateStatus st = true →
  eval (answer_of d) = Throw err →
  ∃ w, run (openai_handler req) = (Normal (), w)
    ∧ statusCode (res w) = 500
    ∧ sent (res w) = Json (VObj (<[ "details" := VStr (message err) ]>
                                  {[ "error" := VStr "Failed to get answer from AI." ]}))
    ∧ calls w = [chat_call q].
Proof.
  intros Hq Ht Hu Hs Hd.
  pose proof (answer_of_throws _ _ Hd) as Hr.
  rewrite (openai_handler_accepts req q Hq Ht).
  unfold try_catch, mbind, js_bind, console_log, emit. simpl.
  rewrite (axios_post_fulfilled _ st d _ Hu Hs). simpl.
  rewrite answer_of_pure, Hd. simpl.
  unfold error_details. rewrite Hr.
  eexists; split; [reflexivity|done].
Qed.

(** *** Bodies that are not objects *)

(** X3: [question] is read from [req.body] before the [try] block: when the
    body is undefined or null the read throws out of the callback, and
    nothing has been sent, called or logged. *)
Theorem openai_body_missing (req : request) :
  body req = VUndefined ∨ body req = VNull →
  ∃ err, run (openai_handler req) = (Throw err, initial_world)
         ∧ response err = None.
Proof.
  intros Hb. unfold run, openai_handler, mbind, js_bind.
  destruct Hb as [-> | ->]; simpl; by eexists.
Qed.

(** X4: a body that is a boolean, a number, a string or an array has no
    [question]: it is answered 400 like an object without one, and no
    upstream call is made. *)
Theorem openai_rejects_non_object (req : request) :
  body req ≠ VUndefined → body req ≠ VNull → (∀ m, body req ≠ VObj m) →
  run (openai_handler req) =
    (Normal (),
     {| res := {| statusCode := 400; res_headers := ∅;
                  sent := Json (VObj {[ "error" := VStr "No question provided." ]}) |};
        calls := []; console := [] |}).
Proof.
  intros Hu Hn Ho. apply (openai_handler_rejects req VUndefined); [|done].
  destruct (body req) as [| |b|n|s|l|m]; try done. by destruct (Ho m).
Qed.

(** *** Uploads without an audio file *)

(** C5: a POST to the transcription route that [express.json()] lets
    through and that holds no file part at all is answered exactly 400
    [{error: "No audio file provided."}], and no upstream call is made; one
    whose first file part sits under a field name other than [audio] is
    refused by [upload.single('audio')] ahead of the callback and gets the
    500 error page, again without upstream call. *)
Theorem stt_rejects_request_without_file (h : http_request) :
  in_method h = "POST" → in_route h = Some Stt →
  (is_Some (express_json h) → files_of (in_content h) = [] →
     ∃ w, run (app h) = (Normal (), w)
       ∧ statusCode (res w) = 400
       ∧ sent (res w) = Json (VObj {[ "error" := VStr "No audio file provided." ]})
       ∧ calls w = [])
  ∧ (∀ field f rest, files_of (in_content h) = (field, f) :: rest →
       field ≠ "audio" →
       ∃ w, run (app h) = (Normal (), w)
         ∧ statusCode (res w) = 500
         ∧ sent (res w) = Html
         ∧ calls w = [] ∧ console w = []).
Proof.
  intros Hm Hr. split.
  - intros [b Hj] Hf. unfold run, app, cors. rewrite Hj. simpl. rewrite Hm. simpl.
    unfold mbind, js_bind, res_setHeader, set_res, router, upload_single; simpl.
    rewrite Hr, Hm. simpl.
    destruct (in_content h) as [|p|fields files]; simpl in *.
    + eexists; split; [reflexivity|done].
    + eexists; split; [reflexivity|done].
    + rewrite Hf. simpl. eexists; split; [reflexivity|done].
  - intros field f rest Hf Hne.
    destruct (in_content h) as [|p|fields files] eqn:Hc; simpl in Hf; try done.
    subst files. unfold run, app, cors, express_json. rewrite Hc. simpl.
    rewrite Hm. simpl.
    unfold mbind, js_bind, res_setHeader, set_res, router, upload_single; simpl.
    rewrite Hr, Hm, Hc. simpl.
    apply String.eqb_neq in Hne. rewrite Hne.
    eexists; split; [reflexivity|done].
Qed.

(** *** Upstream calls of the application *)

(** X5: whatever the request and whatever the upstream does, the
    application calls the upstream at most once. *)
Theorem at_most_one_call (h : http_request) :
  (length (calls (snd (run (app h)))) ≤ 1)%nat.
Proof.
  destruct (app_cases h) as [(w & -> & Hc & _) | (_ & e & req & _ & _ & ->)].
  { simpl. rewrite Hc. simpl. lia. }
  pose proof (handler_handled e req cors_world eq_refl) as H.
  destruct H; simpl; lia.
Qed.

(** X6: the application calls the upstream exactly when a POST reaches one
    of the two routes, gets through the middleware in front of its callback
    and passes the validation of the callback, and the call is then the one
    of that route. *)
Theorem call_iff_accepted (h : http_request) (call : outbound) :
  calls (snd (run (app h))) = [call]
  ↔ in_method h = "POST"
    ∧ ∃ e req, in_route h = Some e ∧ callback_request h e = Some req
               ∧ issues e req call.
Proof.
  destruct (app_cases h)
    as [(w & -> & Hc & _ & Hn) | (Hm & e & req & Hr & Hq & ->)].
  - simpl. rewrite Hc. split; [done|].
    intros (Hm & e & req & Hr & Hq & _). destruct Hn. split; [done|].
    by exists e, req.
  - pose proof (handler_handled e req cors_world eq_refl) as H.
    split.
    + intros Hc. split; [done|]. exists e, req. do 2 (split; [done|]).
      destruct H as [err ? ?|msg ?|c ? ? ? ? ? Hi|c ? ? ? Hi];
        simpl in Hc; try done; by injection Hc as <-.
    + intros (_ & e' & req' & Hr' & Hq' & Hi').
      assert (e' = e) as -> by congruence.
      assert (req' = req) as -> by congruence.
      destruct H as [err -> Ht|msg Hno|c ? ? ? ? ? Hi|c ? ? ? Hi]; simpl.
      * destruct Hi' as (q & Hbody & _). congruence.
      * by destruct (Hno call).
      * by rewrite (issues_functional _ _ _ _ Hi Hi').
      * by rewrite (issues_functional _ _ _ _ Hi Hi').
Qed.

(** *** The shape of the replies *)




(** X8: a route callback answers 200 only after its upstream call was
    answered with a status in 2xx; that call is the only one made. *)
Theorem success_needs_upstream (e : endpoint) (req : request) (b : value) :
  sent (res (snd (run (handler e req)))) = Json b →
  statusCode (res (snd (run (handler e req)))) = 200 →
  ∃ call st d, issues e req call
    ∧ upstream call = Reply st d ∧ validateStatus st = true
    ∧ calls (snd (run (handler e req))) = [call].
Proof.
  unfold run.
  destruct (handler_handled e req initial_world eq_refl)
    as [err _ _|msg _|c st d v l1 l2 Hi Hu Hs|c details l1 label _];
    simpl; try done.
  intros _ _. by exists c, st, d.
Qed.

(** *** The console *)

(** X9: a request that is turned down with 400 leaves no line on the
    console; a failure answered with 500 leaves two, the second being a
    [console.error] with the very [details] sent to the client. *)
Theorem console_of_errors (e : endpoint) (req : request) :
  (statusCode (res (snd (run (handler e req)))) = 400 →
     console (snd (run (handler e req))) = [])
  ∧ (statusCode (res (snd (run (handler e req)))) = 500 →
     ∃ l1 label details,
       console (snd (run (handler e req)))
         = [ConsoleLog l1; ConsoleError [label; details]]
       ∧ sent (res (snd (run (handler e req))))
           = Json (VObj (<[ "details" := details ]>
                          {[ "error" := VStr (fixed_error e) ]}))).
Proof.
  unfold run.
  destruct (handler_handled e req initial_world eq_refl)
    as [err _ _|msg _|c st d v l1 l2 _ _ _|c details l1 label _];
    simpl; (split; [done|]); try done.
  intros _. by exists l1, label, details.
Qed.

(** *** The cross-origin headers *)


(** *** A missing credential *)

(** X11: when the credential is not set, or set to the empty string, the
    check at load time writes one [console.error] line and nothing else
    happens: it does not throw, and every request that passes validation is
    still sent upstream, with the header built from the missing value. *)
Theorem missing_key_is_not_fatal (e : endpoint) (req : request) (call : outbound) :
  OPENAI_API_KEY = None ∨ OPENAI_API_KEY = Some "" →
  issues e req call →
  run check_key =
    (Normal (),
     {| res := initial_res; calls := [];
        console := [ConsoleError
          [VStr "OPENAI_API_KEY is not set in environment variables."]] |})
  ∧ calls (snd (run (handler e req))) = [call]
  ∧ headers call !! "Authorization"
      = Some (match OPENAI_API_KEY with
              | None => "Bearer undefined"
              | Some _ => "Bearer "
              end).
Proof.
  intros Hk Hi. split.
  { unfold check_key. by destruct Hk as [-> | ->]. }
  split.
  - destruct e; simpl in *.
    + destruct Hi as (f & Hf & ->). by apply stt_calls_once.
    + destruct Hi as (q & Hq & Ht & ->). by apply openai_calls_once.
  - destruct e; simpl in Hi.
    + destruct Hi as (f & _ & ->). rewrite whisper_call_authorization.
      unfold bearer. by destruct Hk as [-> | ->].
    + destruct Hi as (q & _ & _ & ->). rewrite chat_call_authorization.
      unfold bearer. by destruct Hk as [-> | ->].
Qed.

(** X16: the question of every request that passes validation is written
    to the console before the upstream is called, whatever the call then
    yields. *)
Theorem question_is_logged (req : request) (q : value) :
  eval (get_prop (body req) Question) = Normal q → truthy q = true →
  ∃ rest, console (snd (run (openai_handler req)))
          = ConsoleLog [VStr "Sending question to OpenAI API:"; q] :: rest.
Proof.
  intros Hq Ht. rewrite (openai_handler_accepts req q Hq Ht).
  unfold try_catch, mbind at 1 2, js_bind at 1 2, console_log, emit, axios_post.
  simpl.
  destruct (upstream (chat_call q)) as [msg|st d]; [by eexists|].
  destruct (validateStatus st); [|by eexists].
  unfold mbind, js_bind. simpl. rewrite answer_of_pure.
  destruct (eval (answer_of d)); by eexists.
Qed.

(** With a credential that is set and not empty the check is silent. *)
Lemma check_key_silent (k : string) :
  OPENAI_API_KEY = Some k → k ≠ "" → run check_key = (Normal (), initial_world).
Proof.
  intros Hk Hne. unfold check_key. rewrite Hk. simpl.
  by apply String.eqb_neq in Hne as ->.
Qed.

End Gateway.

(** ** The number literals *)

(** [num_250] is 250, in normal form. *)
Lemma num_250_value :
  num_250 = S754_finite false (250 * 2 ^ 45)%positive (-45)
  ∧ valid_binary 53 1024 num_250 = true.
Proof. split; reflexivity. Qed.

(** [num_0_7] is the binary64 number nearest to 7/10: it lies within half a
    unit in the last place, 2^-54, of it. *)
Lemma num_0_7_nearest :
  ∃ m, num_0_7 = S754_finite false m (-53)
       ∧ (Z.abs (10 * Z.pos m - 7 * 2 ^ 53) ≤ 5)%Z
       ∧ valid_binary 53 1024 num_0_7 = true.
Proof. eexists; split; [reflexivity|]. split; [vm_compute; discriminate|reflexivity]. Qed.

(** ** Concrete runs *)

Lemma openai_success_42 :
  ∃ w, run (openai_handler Sample.key (Sample.answers 200 Sample.completion_42)
              (Sample.ask (VStr "What is six times seven?")))
         = (Normal (), w)
       ∧ statusCode (res w) = 200
       ∧ sent (res w) = Json (VObj {[ "answer" := VStr "42" ]}).
Proof.
  apply openai_success
    with (q := VStr "What is six times seven?") (st := 200) (d := Sample.completion_42);
    reflexivity.
Defined.

Lemma openai_rejects_empty_body :
  ∃ w, run (openai_handler Sample.key Sample.unreachable Sample.ask_nothing)
         = (Normal (), w)
       ∧ statusCode (res w) = 400
       ∧ sent (res w) = Json (VObj {[ "error" := VStr "No question provided." ]})
       ∧ calls w = [].
Proof.
  apply openai_rejects_missing_question with (m := ∅);
    [reflexivity | left; reflexivity].
Defined.

Lemma stt_success_hello_world :
  ∃ w, run (stt_handler Sample.key "b0undary" (Sample.answers 200 Sample.transcript)
              Sample.upload)
         = (Normal (), w)
       ∧ statusCode (res w) = 200
       ∧ sent (res w) = Json (VObj {[ "transcription" := VStr "hello world" ]}).
Proof.
  apply stt_success with (f := Sample.clip) (st := 200) (d := Sample.transcript);
    reflexivity.
Defined.

Lemma stt_rejects_empty_upload :
  ∃ w, run (stt_handler Sample.key "b0undary" Sample.unreachable Sample.empty_upload)
         = (Normal (), w)
       ∧ statusCode (res w) = 400
       ∧ sent (res w) = Json (VObj {[ "error" := VStr "No audio file provided." ]})
       ∧ calls w = [].
Proof. apply stt_rejects_missing_file. reflexivity. Defined.

Lemma upstream_failure_quota :
  ∃ w, run (handler Sample.key "b0undary" (Sample.answers 429 Sample.quota_error)
              Openai (Sample.ask (VStr "hi")))
         = (Normal (), w)
       ∧ statusCode (res w) = 500
       ∧ sent (res w) = Json (VObj (<[ "details" := Sample.quota_error ]>
                                     {[ "error" := VStr "Failed to get answer from AI." ]}))
       ∧ calls w = [chat_call Sample.key (VStr "hi")].
Proof.
  apply (upstream_failure_reported Sample.key "b0undary"
           (Sample.answers 429 Sample.quota_error) Openai (Sample.ask (VStr "hi"))
           (chat_call Sample.key (VStr "hi")) Sample.quota_error).
  - exists (VStr "hi"). repeat split; reflexivity.
  - reflexivity.
Defined.

(** The same failure modes on the transcription route. *)
Example upstream_failure_unreachable :
  ∃ w, run (stt_handler Sample.key "b0undary" Sample.unreachable Sample.upload)
         = (Normal (), w)
       ∧ statusCode (res w) = 500
       ∧ sent (res w) = Json (VObj (<[ "details" := VStr "connect ECONNREFUSED" ]>
                                     {[ "error" := VStr "Failed to transcribe audio." ]}))
       ∧ length (calls w) = 1.
Proof. eexists; split; [reflexivity|done]. Qed.

Lemma openai_outbound_call_hi :
  ∃ call p,
    calls (snd (run (openai_handler Sample.key Sample.unreachable
                       (Sample.ask (VStr "hi"))))) = [call]
    ∧ url call = "https://api.openai.com/v1/chat/completions"
    ∧ payload call = JsonData (VObj p)
    ∧ dom p = {[ "model"; "messages"; "temperature"; "max_tokens" ]}
    ∧ p !! "model" = Some (VStr "gpt-3.5-turbo")
    ∧ p !! "messages"
        = Some (VArr [ VObj (<[ "role" := VStr "user" ]>
                               {[ "content" := VStr "hi" ]}) ])
    ∧ p !! "temperature" = Some (VNum num_0_7)
    ∧ p !! "max_tokens" = Some (VNum num_250)
    ∧ headers call !! "Authorization"
        = Some ("Bearer " +:+ default "undefined" Sample.key)
    ∧ (∀ k, Sample.key = Some k →
         headers call !! "Authorization" = Some ("Bearer " +:+ k)).
Proof.
  apply (openai_outbound_call Sample.key Sample.unreachable
           (Sample.ask (VStr "hi")) (VStr "hi")); reflexivity.
Defined.

Lemma stt_outbound_call_clip :
  ∃ call,
    calls (snd (run (stt_handler Sample.key "b0undary" Sample.unreachable
                       Sample.upload))) = [call]
    ∧ url call = "https://api.openai.com/v1/audio/transcriptions"
    ∧ payload call = FormData
        [ {| part_name := "file";
             part_content_of := Buffer (buffer Sample.clip);
             part_filename := Some "audio.webm";
             part_contentType := Some (mimetype Sample.clip) |};
          {| part_name := "model";
             part_content_of := Field "whisper-1";
             part_filename := None;
             part_contentType := None |} ]
    ∧ headers call !! "Authorization"
        = Some ("Bearer " +:+ default "undefined" Sample.key)
    ∧ (∀ k, Sample.key = Some k →
         headers call !! "Authorization" = Some ("Bearer " +:+ k)).
Proof.
  apply (stt_outbound_call Sample.key "b0undary" Sample.unreachable
           Sample.upload Sample.clip); reflexivity.
Defined.

(** Neither a missing [choices] nor an empty one offers a first choice. *)
Lemma no_first_choice_missing (m : gmap string value) :
  m !! "choices" = None → no_first_choice (VObj m) = true.
Proof.
  intros Hm. unfold no_first_choice, eval, run, first_choice, mbind, js_bind. simpl.
  change (prop_name Choices) with "choices". by rewrite Hm.
Qed.

Lemma no_first_choice_empty (m : gmap string value) :
  m !! "choices" = Some (VArr []) → no_first_choice (VObj m) = true.
Proof.
  intros Hm. unfold no_first_choice, eval, run, first_choice, mbind, js_bind. simpl.
  change (prop_name Choices) with "choices". by rewrite Hm.
Qed.

Lemma openai_no_first_choice_empty_list :
  ∃ w msg,
    run (openai_handler Sample.key
           (Sample.answers 200 (VObj {[ "choices" := VArr [] ]}))
           (Sample.ask (VStr "hi"))) = (Normal (), w)
    ∧ eval (answer_of (VObj {[ "choices" := VArr [] ]}))
        = Throw {| message := msg; response := None |}
    ∧ statusCode (res w) = 500
    ∧ sent (res w) = Json (VObj (<[ "details" := VStr msg ]>
                                  {[ "error" := VStr "Failed to get answer from AI." ]})).
Proof.
  apply (openai_no_first_choice Sample.key
           (Sample.answers 200 (VObj {[ "choices" := VArr [] ]}))
           (Sample.ask (VStr "hi")) (VStr "hi") 200
           (VObj {[ "choices" := VArr [] ]}));
    reflexivity.
Defined.

(** The messages the two shapes of C9 end up reporting. *)
Example details_of_empty_choices :
  eval (answer_of (VObj {[ "choices" := VArr [] ]}))
  = Throw {| message := "Cannot read properties of undefined (reading 'message')";
             response := None |}.
Proof. reflexivity. Qed.

Example details_of_missing_choices :
  eval (answer_of (VObj ∅))
  = Throw {| message := "Cannot read properties of undefined (reading '0')";
             response := None |}.
Proof. reflexivity. Qed.

Lemma validation_forwards_number :
  ∃ call p,
    calls (snd (run (openai_handler Sample.key Sample.unreachable
                       (Sample.ask (VNum num_250))))) = [call]
    ∧ payload call = JsonData (VObj p)
    ∧ p !! "messages"
        = Some (VArr [ VObj (<[ "role" := VStr "user" ]>
                               {[ "content" := VNum num_250 ]}) ]).
Proof.
  apply (proj2 (proj2 (proj2 (proj2 (proj2
           (validation_tests_truthiness_only Sample.key Sample.unreachable)))))
           (Sample.ask (VNum num_250)) {[ "question" := VNum num_250 ]}
           (VNum num_250));
    reflexivity.
Defined.

(** Zero and [false] meet the same reply as no question at all. *)
Example validation_rejects_zero_and_false :
  run (openai_handler Sample.key Sample.unreachable (Sample.ask (VNum num_0)))
    = run (openai_handler Sample.key Sample.unreachable Sample.ask_nothing)
  ∧ run (openai_handler Sample.key Sample.unreachable (Sample.ask (VBool false)))
    = run (openai_handler Sample.key Sample.unreachable Sample.ask_nothing).
Proof. split; reflexivity. Qed.

(** ** Origins *)

(** A POST from another origin is handed to whatever follows the
    cross-origin layer. *)
Lemma foreign_ask_passes :
  headers_origin Sample.foreign_ask = Some "https://evil.example"
  ∧ "https://evil.example" ≠ origin corsOptions
  ∧ ¬ answers_itself (cors corsOptions Sample.foreign_ask).
Proof.
  split; [reflexivity|]. split; [discriminate|].
  intros H. specialize (H (res_status 500) (mret ()) initial_world).
  vm_compute in H. discriminate H.
Qed.

(** C8, as the claim puts it, fails: a request from another origin is not
    turned away before the routes. *)
Lemma cors_does_not_reject_foreign_origins : ¬ rejects_foreign_origins.
Proof.
  intros H. destruct foreign_ask_passes as (Ho & Hne & Hpass).
  exact (Hpass (H Sample.foreign_ask _ Ho Hne)).
Qed.

(** It reaches the chat route, which calls the upstream and answers. *)
Example foreign_ask_is_served :
  ∃ w, run (app Sample.key "b0undary" (Sample.answers 200 Sample.completion_42)
              Sample.express4_body Sample.foreign_post) = (Normal (), w)
       ∧ statusCode (res w) = 200
       ∧ sent (res w) = Json (VObj {[ "answer" := VStr "42" ]})
       ∧ calls w = [chat_call Sample.key (VStr "hi")]
       ∧ res_headers (res w) !! "Access-Control-Allow-Origin"
           = Some "https://voice-ai-frontend-q3c3.onrender.com".
Proof. eexists; split; [reflexivity|]. repeat split; reflexivity. Qed.

Lemma cors_policy_foreign_ask :
  run (cors corsOptions Sample.foreign_ask (res_status 500)) =
    res_status 500
      {| res := {| statusCode := 200;
                   res_headers :=
                     <[ "Vary" := "Origin" ]>
                     {[ "Access-Control-Allow-Origin" :=
                          "https://voice-ai-frontend-q3c3.onrender.com" ]};
                   sent := NotSent |};
         calls := []; console := [] |}.
Proof.
  apply (proj2 (cors_policy Sample.foreign_ask (res_status 500))).
  vm_compute. discriminate.
Defined.

(** A preflight from the same page stops at the cross-origin layer. *)
Example preflight_is_answered :
  ∃ w, run (app Sample.key "b0undary" Sample.unreachable Sample.express4_body
              Sample.preflight_options) = (Normal (), w)
       ∧ statusCode (res w) = 204 ∧ sent (res w) = Ended ∧ calls w = []
       ∧ res_headers (res w) !! "Access-Control-Allow-Methods" = Some "GET,POST"
       ∧ res_headers (res w) !! "Access-Control-Allow-Headers" = Some "Content-Type".
Proof. eexists; split; [reflexivity|]. repeat split; reflexivity. Qed.

(** ** What a reply does not depend on *)

(** X12: the credential goes into the upstream call and nowhere else.
    Against an upstream whose answer depends on the URL and the payload of a
    call only, two gateways that differ in their credential alone end the
    same way, send the same reply to the client, write the same lines to the
    console, and call the same URLs with the same payloads. *)
Theorem credential_stays_upstream
    (reply : string → request_data → upstream_reply)
    (k1 k2 : option string) (b : string) (e : endpoint) (req : request) :
  let up := λ call : outbound, reply (url call) (payload call) in
  fst (run (handler k1 b up e req)) = fst (run (handler k2 b up e req))
  ∧ res (snd (run (handler k1 b up e req)))
      = res (snd (run (handler k2 b up e req)))
  ∧ console (snd (run (handler k1 b up e req)))
      = console (snd (run (handler k2 b up e req)))
  ∧ url <$> calls (snd (run (handler k1 b up e req)))
      = url <$> calls (snd (run (handler k2 b up e req)))
  ∧ payload <$> calls (snd (run (handler k1 b up e req)))
      = payload <$> calls (snd (run (handler k2 b up e req))).
Proof.
  intros up. destruct e; simpl.
  - destruct (file req) as [f|] eqn:Hf.
    + rewrite !(stt_handler_accepts _ _ _ req f Hf).
      unfold try_catch, mbind, js_bind, console_log, emit, axios_post, up; simpl.
      destruct (reply _ _) as [msg|st d]; simpl; [done|].
      destruct (validateStatus st); simpl; [|done].
      by destruct d.
    + unfold run, stt_handler. by rewrite Hf.
  - destruct (eval (get_prop (body req) Question)) as [q|err] eqn:Hq.
    + destruct (truthy q) eqn:Ht.
      * rewrite !(openai_handler_accepts _ _ req q Hq Ht).
        unfold try_catch, mbind, js_bind, console_log, emit, axios_post, up; simpl.
        destruct (reply _ _) as [msg|st d]; simpl; [done|].
        destruct (validateStatus st); simpl; [|done].
        rewrite !answer_of_pure. by destruct (eval (answer_of d)).
      * by rewrite !(openai_handler_rejects _ _ req q Hq Ht).
    + unfold run, openai_handler, mbind, js_bind.
      by rewrite !get_prop_pure, Hq.
Qed.

(** X13: of an upload the transcription route reads the bytes and the media
    type, nothing else: two requests whose files agree on both run alike,
    whatever the original file names, bodies, methods and origins. *)
Theorem stt_reads_file_only
    (k : option string) (b : string) (up : outbound → upstream_reply)
    (req req' : request) (f f' : uploaded_file) :
  file req = Some f → file req' = Some f' →
  buffer f = buffer f' → mimetype f = mimetype f' →
  run (stt_handler k b up req) = run (stt_handler k b up req').
Proof.
  intros Hf Hf' Hb Hm.
  rewrite (stt_handler_accepts k b up req f Hf),
    (stt_handler_accepts k b up req' f' Hf').
  unfold whisper_call, formData. by rewrite Hb, Hm.
Qed.

(** X14: of a JSON object the chat route reads [question], nothing else:
    two requests whose bodies agree on it run alike, whatever else the
    bodies and the requests hold. *)
Theorem openai_reads_question_only
    (k : option string) (up : outbound → upstream_reply)
    (req req' : request) (m m' : gmap string value) :
  body req = VObj m → body req' = VObj m' →
  m !! "question" = m' !! "question" →
  run (openai_handler k up req) = run (openai_handler k up req').
Proof.
  intros Hb Hb' Hq. unfold run, openai_handler, mbind at 1 3, js_bind at 1 3.
  rewrite !get_prop_pure, Hb, Hb', !get_prop_obj.
  change (prop_name Question) with "question". by rewrite Hq.
Qed.

(** ** The port *)

(** [num_3001] is 3001, in normal form. *)
Lemma num_3001_value :
  num_3001 = S754_finite false (3001 * 2 ^ 41)%positive (-41)
  ∧ valid_binary 53 1024 num_3001 = true.
Proof. split; reflexivity. Qed.

(** X15: the port is the text of PORT when that is set and not empty, and
    the number 3001 otherwise, an empty PORT included; it is never a falsy
    value. *)
Theorem port_fallback (PORT : option string) :
  truthy (port PORT) = true
  ∧ (port PORT = VNum num_3001 ↔ PORT = None ∨ PORT = Some "")
  ∧ (∀ p, PORT = Some p → p ≠ "" → port PORT = VStr p).
Proof.
  unfold port, js_or, env_value.
  destruct PORT as [p|]; simpl.
  - destruct (String.eqb p "") eqn:Hp; simpl.
    + apply String.eqb_eq in Hp as ->. split; [done|]. split.
      * split; auto.
      * intros p' [= <-] Hne. by destruct Hne.
    + rewrite ?Hp. split; [done|]. apply String.eqb_neq in Hp. split.
      * split; [done|]. intros [H|[= H]]; [done|]. by destruct Hp.
      * by intros p' [= <-] _.
  - split; [done|]. split; [|done]. split; auto.
Qed.

(** ** Concrete runs of the further properties *)

Lemma stt_unreadable_reply_null :
  (VNull = VNull ∨ VNull = VUndefined)
  ∧ ∃ w, run (stt_handler Sample.key "b0undary" (Sample.answers 200 VNull)
                Sample.upload) = (Normal (), w)
      ∧ statusCode (res w) = 500
      ∧ sent (res w) = Json (VObj
          (<[ "details" := VStr "Cannot read properties of null (reading 'text')" ]>
           {[ "error" := VStr "Failed to transcribe audio." ]}))
      ∧ calls w = [whisper_call Sample.key "b0undary" Sample.clip].
Proof.
  apply (stt_unreadable_reply Sample.key "b0undary" (Sample.answers 200 VNull)
           Sample.upload Sample.clip 200 VNull (type_error "null" "text"));
    reflexivity.
Defined.

Lemma openai_unreadable_reply_no_message :
  ∃ w, run (openai_handler Sample.key
              (Sample.answers 200 Sample.completion_without_message)
              (Sample.ask (VStr "hi"))) = (Normal (), w)
    ∧ statusCode (res w) = 500
    ∧ sent (res w) = Json (VObj
        (<[ "details" :=
              VStr "Cannot read properties of undefined (reading 'content')" ]>
         {[ "error" := VStr "Failed to get answer from AI." ]}))
    ∧ calls w = [chat_call Sample.key (VStr "hi")].
Proof.
  apply (openai_unreadable_reply Sample.key
           (Sample.answers 200 Sample.completion_without_message)
           (Sample.ask (VStr "hi")) (VStr "hi") 200
           Sample.completion_without_message
           (type_error "undefined" "content"));
    reflexivity.
Defined.

Lemma openai_body_missing_no_body :
  ∃ err, run (openai_handler Sample.key Sample.unreachable Sample.no_body)
           = (Throw err, initial_world)
         ∧ response err = None.
Proof. apply openai_body_missing. left. reflexivity. Defined.

Lemma openai_rejects_array_body :
  run (openai_handler Sample.key Sample.unreachable Sample.array_body) =
    (Normal (),
     {| res := {| statusCode := 400; res_headers := ∅;
                  sent := Json (VObj {[ "error" := VStr "No question provided." ]}) |};
        calls := []; console := [] |}).
Proof. apply openai_rejects_non_object; intros; discriminate. Defined.

Lemma call_iff_accepted_foreign_ask :
  calls (snd (run (app Sample.key "b0undary" Sample.unreachable
                     Sample.express4_body Sample.foreign_post)))
  = [chat_call Sample.key (VStr "hi")].
Proof.
  apply (proj2 (call_iff_accepted Sample.key "b0undary" Sample.unreachable
                  Sample.express4_body Sample.foreign_post
                  (chat_call Sample.key (VStr "hi")))).
  split; [reflexivity|].
  exists Openai, Sample.foreign_ask. do 2 (split; [reflexivity|]).
  exists (VStr "hi"). repeat split; reflexivity.
Defined.


(** An upstream body without [text] leaves an empty object on the wire. *)
Example reply_without_text :
  ∃ w v, run (stt_handler Sample.key "b0undary" (Sample.answers 200 (VObj ∅))
                Sample.upload) = (Normal (), w)
    ∧ statusCode (res w) = 200
    ∧ sent (res w) = Json v
    ∧ to_json v = Some (VObj ∅).
Proof. eexists _, _; split; [reflexivity|]. repeat split; reflexivity. Qed.

Lemma success_needs_upstream_42 :
  ∃ call st d,
    issues Sample.key "b0undary" Openai (Sample.ask (VStr "hi")) call
    ∧ Sample.answers 200 Sample.completion_42 call = Reply st d
    ∧ validateStatus st = true
    ∧ calls (snd (run (handler Sample.key "b0undary"
                         (Sample.answers 200 Sample.completion_42) Openai
                         (Sample.ask (VStr "hi"))))) = [call].
Proof.
  apply (success_needs_upstream Sample.key "b0undary"
           (Sample.answers 200 Sample.completion_42) Openai
           (Sample.ask (VStr "hi")) (VObj {[ "answer" := VStr "42" ]}));
    reflexivity.
Defined.

Lemma console_of_errors_rejected :
  console (snd (run (handler Sample.key "b0undary" Sample.unreachable Stt
                       Sample.empty_upload))) = [].
Proof.
  apply (proj1 (console_of_errors Sample.key "b0undary" Sample.unreachable Stt
                  Sample.empty_upload)).
  reflexivity.
Defined.

Lemma missing_key_still_forwards :
  run (check_key None) =
    (Normal (),
     {| res := initial_res; calls := [];
        console := [ConsoleError
          [VStr "OPENAI_API_KEY is not set in environment variables."]] |})
  ∧ calls (snd (run (handler None "b0undary" Sample.unreachable Openai
                       (Sample.ask (VStr "hi")))))
      = [chat_call None (VStr "hi")]
  ∧ headers (chat_call None (VStr "hi")) !! "Authorization"
      = Some "Bearer undefined".
Proof.
  apply (missing_key_is_not_fatal None "b0undary" Sample.unreachable Openai
           (Sample.ask (VStr "hi")) (chat_call None (VStr "hi"))).
  - left. reflexivity.
  - exists (VStr "hi"). repeat split; reflexivity.
Defined.

Lemma stt_reads_file_only_renamed :
  run (stt_handler Sample.key "b0undary" Sample.unreachable Sample.upload)
  = run (stt_handler Sample.key "b0undary" Sample.unreachable
           {| method := "POST"; route := Some Stt;
              headers_origin := Some "https://evil.example";
              body := VObj {[ "model" := VStr "whisper-2" ]};
              file := Some {| buffer := buffer Sample.clip;
                              mimetype := mimetype Sample.clip;
                              originalname := "../../etc/passwd" |} |}).
Proof.
  apply (stt_reads_file_only Sample.key "b0undary" Sample.unreachable
           Sample.upload _ Sample.clip
           {| buffer := buffer Sample.clip; mimetype := mimetype Sample.clip;
              originalname := "../../etc/passwd" |});
    reflexivity.
Defined.

Lemma openai_reads_question_only_extra_fields :
  run (openai_handler Sample.key Sample.unreachable (Sample.ask (VStr "hi")))
  = run (openai_handler Sample.key Sample.unreachable
           {| method := "POST"; route := Some Openai; headers_origin := None;
              body := VObj (<[ "model" := VStr "gpt-4" ]>
                             {[ "question" := VStr "hi" ]});
              file := Some Sample.clip |}).
Proof.
  apply (openai_reads_question_only Sample.key Sample.unreachable
           (Sample.ask (VStr "hi")) _
           {[ "question" := VStr "hi" ]}
           (<[ "model" := VStr "gpt-4" ]> {[ "question" := VStr "hi" ]}));
    reflexivity.
Defined.

Lemma port_fallback_8080 : port (Some "8080") = VStr "8080".
Proof.
  apply (proj2 (proj2 (port_fallback (Some "8080"))) "8080");
    [reflexivity | discriminate].
Defined.

(** An empty PORT is passed over like a missing one. *)
Example port_of_empty : port (Some "") = VNum num_3001 ∧ port None = VNum num_3001.
Proof. split; reflexivity. Qed.

Lemma question_is_logged_hi :
  ∃ rest,
    console (snd (run (openai_handler Sample.key Sample.unreachable
                         (Sample.ask (VStr "hi")))))
    = ConsoleLog [VStr "Sending question to OpenAI API:"; VStr "hi"] :: rest.
Proof.
  apply (question_is_logged Sample.key Sample.unreachable
           (Sample.ask (VStr "hi")) (VStr "hi")); reflexivity.
Defined.

(** ** Uploads the middleware refuses *)

(** A form whose only file sits under the field name [file] holds no
    [audio] file, yet it does not meet the 400 of the callback: the upload
    middleware refuses it and the 500 error page is sent. *)
Lemma misnamed_upload_refused :
  in_method Sample.misnamed_upload = "POST"
  ∧ in_route Sample.misnamed_upload = Some Stt
  ∧ carries_audio Sample.misnamed_upload = false
  ∧ ∃ w, run (app Sample.key "b0undary" Sample.unreachable Sample.express4_body
                Sample.misnamed_upload) = (Normal (), w)
      ∧ statusCode (res w) = 500
      ∧ sent (res w) = Html
      ∧ calls w = [] ∧ console w = [].
Proof. do 3 (split; [reflexivity|]). eexists; split; [reflexivity|done]. Qed.

(** C5, as the claim puts it, fails: not every request without an [audio]
    file gets the 400 reply. *)
Lemma not_all_without_audio_get_400 :
  ¬ rejects_all_without_audio Sample.key "b0undary" Sample.unreachable
      Sample.express4_body.
Proof.
  intros H.
  destruct misnamed_upload_refused as (Hm & Hr & Ha & w' & Hrun & Hs' & _).
  destruct (H Sample.misnamed_upload Hm Hr Ha) as (w & Hw & Hs & _).
  rewrite Hrun in Hw. injection Hw as <-. rewrite Hs' in Hs. discriminate Hs.
Qed.

Lemma stt_rejects_fileless_upload :
  ∃ w, run (app Sample.key "b0undary" Sample.unreachable Sample.express4_body
              Sample.fileless_upload) = (Normal (), w)
    ∧ statusCode (res w) = 400
    ∧ sent (res w) = Json (VObj {[ "error" := VStr "No audio file provided." ]})
    ∧ calls w = [].
Proof.
  apply (proj1 (stt_rejects_request_without_file Sample.key "b0undary"
                  Sample.unreachable Sample.express4_body
                  Sample.fileless_upload eq_refl eq_refl)).
  - by eexists.
  - reflexivity.
Defined.


(** A body that is not JSON is turned away before the cross-origin layer. *)
Example malformed_post_refused :
  ∃ w, run (app Sample.key "b0undary" Sample.unreachable Sample.express4_body
              Sample.malformed_post) = (Normal (), w)
    ∧ statusCode (res w) = 400 ∧ sent (res w) = Html
    ∧ res_headers (res w) !! "Access-Control-Allow-Origin" = None
    ∧ calls w = [] ∧ console w = [].
Proof. eexists; split; [reflexivity|done]. Qed.
